(** * ITO event analysis dashboard: duration codec, severity bands, report

    A shallow embedding of the reusable core of [app.py]:
    - [parse_duration_to_seconds], [format_seconds_to_duration] and
      [calculate_average_duration] (the duration codec);
    - the severity counting of [generate_report] and
      [perform_simple_ai_analysis];
    - the report text and summary table assembled by [generate_report].

    Conventions of the embedding.
    - A Python [str] is a list of Unicode code points ([pystr]).  The
      whitespace and decimal-digit classes are those of the interpreter
      (Unicode 14 tables of CPython 3.11).
    - Python exceptions are values of [exn]; code that can raise lives in
      the [result] monad and [try ... except:] is [try_except].
    - Python integers are unbounded ([Z]); [int(str)] has the
      interpreter's limit of 4300 digits.  A finite float is given by its
      value, a rational ([Q]); the quotients of the duration codec are
      rounded as the interpreter rounds them ([round_float], binary64,
      ties to even), and a quotient of integers beyond the float range
      raises [OverflowError].  [int(x)] truncates towards zero.  The
      percentages of the report and of the dashboard are carried as exact
      quotients ([py_truediv]): only their sign, their range and their
      division by zero are stated.
    - What pandas, the f-string mini-language for floats and the datetime
      parser do internally is taken through the interface [Externals]. *)

From Stdlib Require Import Ascii String.
From Stdlib Require Import ZArith NArith QArith Qround Qabs Qpower.
From Stdlib Require Import List Bool Lia Lqa.
From Stdlib Require Import Permutation.
Import ListNotations.

(** ** Python strings as code points *)

Definition char := N.
Definition pystr := list char.

Module Utf8.

(** Source literals are written as UTF-8 text and decoded to code points. *)
Fixpoint decode (bs : list N) : pystr :=
  match bs with
  | [] => []
  | b :: r1 =>
      if (b <? 0x80)%N then b :: decode r1
      else if (b <? 0xE0)%N then
        match r1 with
        | b2 :: r2 => ((b mod 0x20) * 0x40 + b2 mod 0x40)%N :: decode r2
        | _ => []
        end
      else if (b <? 0xF0)%N then
        match r1 with
        | b2 :: b3 :: r3 =>
            ((b mod 0x10) * 0x1000 + (b2 mod 0x40) * 0x40 + b3 mod 0x40)%N
              :: decode r3
        | _ => []
        end
      else
        match r1 with
        | b2 :: b3 :: b4 :: r4 =>
            ((b mod 0x08) * 0x40000 + (b2 mod 0x40) * 0x1000
             + (b3 mod 0x40) * 0x40 + b4 mod 0x40)%N :: decode r4
        | _ => []
        end
  end.

Definition bytes (s : String.string) : list N :=
  List.map N_of_ascii (String.list_ascii_of_string s).

End Utf8.

(** [lit "text"] is the Python literal ['text']. *)
Definition lit (s : String.string) : pystr := Utf8.decode (Utf8.bytes s).

Definition pystr_eqb (a b : pystr) : bool :=
  if list_eq_dec N.eq_dec a b then true else false.

(** [c in s] for a one-character [c]. *)
Definition contains (c : char) (s : pystr) : bool := existsb (N.eqb c) s.

(** [s.replace(c, '')] for a one-character [c]. *)
Definition remove_char (c : char) (s : pystr) : pystr :=
  filter (fun x => negb (N.eqb c x)) s.

(** [str.isspace] on one code point. *)
Definition is_space (c : char) : bool :=
  ((9 <=? c) && (c <=? 13) || (28 <=? c) && (c <=? 32)
   || (c =? 0x85) || (c =? 0xA0) || (c =? 0x1680)
   || (0x2000 <=? c) && (c <=? 0x200A)
   || (c =? 0x2028) || (c =? 0x2029) || (c =? 0x202F)
   || (c =? 0x205F) || (c =? 0x3000))%N.

(** First code point of every block of ten decimal digits (category Nd). *)
Definition decimal_zeros : list N :=
  [0x30; 0x660; 0x6f0; 0x7c0; 0x966; 0x9e6; 0xa66; 0xae6; 0xb66; 0xbe6;
   0xc66; 0xce6; 0xd66; 0xde6; 0xe50; 0xed0; 0xf20; 0x1040; 0x1090;
   0x17e0; 0x1810; 0x1946; 0x19d0; 0x1a80; 0x1a90; 0x1b50; 0x1bb0;
   0x1c40; 0x1c50; 0xa620; 0xa8d0; 0xa900; 0xa9d0; 0xa9f0; 0xaa50;
   0xabf0; 0xff10; 0x104a0; 0x10d30; 0x11066; 0x110f0; 0x11136; 0x111d0;
   0x112f0; 0x11450; 0x114d0; 0x11650; 0x116c0; 0x11730; 0x118e0;
   0x11950; 0x11c50; 0x11d50; 0x11da0; 0x16a60; 0x16ac0; 0x16b50;
   0x1d7ce; 0x1d7d8; 0x1d7e2; 0x1d7ec; 0x1d7f6; 0x1e140; 0x1e2f0;
   0x1e950; 0x1fbf0]%N.

Fixpoint digit_in (zeros : list N) (c : char) : option Z :=
  match zeros with
  | [] => None
  | z :: rest =>
      if ((z <=? c) && (c <? z + 10))%N then Some (Z.of_N (c - z))
      else digit_in rest c
  end.

(** The decimal value of a code point, as [int] reads it. *)
Definition decimal_digit (c : char) : option Z := digit_in decimal_zeros c.

Fixpoint drop_while (p : char -> bool) (s : pystr) : pystr :=
  match s with
  | [] => []
  | c :: r => if p c then drop_while p r else s
  end.

Definition lstrip_by (p : char -> bool) (s : pystr) : pystr := drop_while p s.
Definition rstrip_by (p : char -> bool) (s : pystr) : pystr :=
  rev (drop_while p (rev s)).

(** [s.strip()] *)
Definition py_strip (s : pystr) : pystr :=
  rstrip_by is_space (lstrip_by is_space s).

(** [s.split()]: the maximal runs of non-whitespace, in order.  [cur] is
    the run being read. *)
Fixpoint split_from (cur : pystr) (s : pystr) : list pystr :=
  match s with
  | [] => match cur with [] => [] | _ => [cur] end
  | c :: r =>
      if is_space c
      then match cur with
           | [] => split_from [] r
           | _ => cur :: split_from [] r
           end
      else split_from (cur ++ [c]) r
  end.

Definition py_split (s : pystr) : list pystr := split_from [] s.

(** *** [int(str)] *)

(** Whitespace that [int] ignores around the literal: the C-locale blanks,
    and every non-ASCII blank (which the interpreter first maps to a
    space). The ASCII separators 28..31 are not among them. *)
Definition int_space (c : char) : bool :=
  ((9 <=? c) && (c <=? 13) || (c =? 32) || (127 <=? c) && is_space c)%N.

Definition underscore : char := 95%N.
Definition minus_sign : char := 45%N.
Definition plus_sign : char := 43%N.

(** Digits after a first digit, single underscores allowed between two
    digits. [acc] is the value read so far. *)
Fixpoint int_digits (acc : Z) (s : pystr) : option Z :=
  match s with
  | [] => Some acc
  | c :: r =>
      match decimal_digit c with
      | Some d => int_digits (10 * acc + d) r
      | None =>
          if (c =? underscore)%N then
            match r with
            | c' :: r' =>
                match decimal_digit c' with
                | Some d => int_digits (10 * acc + d) r'
                | None => None
                end
            | [] => None
            end
          else None
      end
  end.

(** The interpreter's limit on the length of an integer literal
    ([sys.get_int_max_str_digits()], 4300 unless configured otherwise):
    [int] counts the digits, leading zeros included and underscores not,
    and refuses a longer literal with [ValueError]. *)
Definition max_str_digits : Z := 4300.

Definition digit_count (s : pystr) : Z :=
  Z.of_nat (length (filter (fun c => match decimal_digit c with
                                     | Some _ => true
                                     | None => false
                                     end) s)).

Definition int_unsigned (s : pystr) : option Z :=
  if (digit_count s <=? max_str_digits)%Z then
    match s with
    | [] => None
    | c :: r =>
        match decimal_digit c with
        | Some d => int_digits d r
        | None => None
        end
    end
  else None.

(** [int(s)] in base ten; [None] stands for [ValueError]. *)
Definition py_int (s : pystr) : option Z :=
  match rstrip_by int_space (lstrip_by int_space s) with
  | [] => None
  | c :: r =>
      if (c =? minus_sign)%N then option_map Z.opp (int_unsigned r)
      else if (c =? plus_sign)%N then int_unsigned r
      else int_unsigned (c :: r)
  end.

(** [str(n)] for an integer. *)
Fixpoint uint_chars (d : Decimal.uint) : pystr :=
  match d with
  | Decimal.Nil => []
  | Decimal.D0 r => 48%N :: uint_chars r
  | Decimal.D1 r => 49%N :: uint_chars r
  | Decimal.D2 r => 50%N :: uint_chars r
  | Decimal.D3 r => 51%N :: uint_chars r
  | Decimal.D4 r => 52%N :: uint_chars r
  | Decimal.D5 r => 53%N :: uint_chars r
  | Decimal.D6 r => 54%N :: uint_chars r
  | Decimal.D7 r => 55%N :: uint_chars r
  | Decimal.D8 r => 56%N :: uint_chars r
  | Decimal.D9 r => 57%N :: uint_chars r
  end.

Definition str_of_N (n : N) : pystr := uint_chars (N.to_uint n).

Definition str_of_Z (z : Z) : pystr :=
  if (z <? 0)%Z then minus_sign :: str_of_N (Z.abs_N z)
  else str_of_N (Z.abs_N z).

(** ** Exceptions *)

Inductive exn : Set :=
| AttributeError
| ValueError
| TypeError
| ZeroDivisionError
| OverflowError.

Inductive result (A : Type) : Type :=
| Return (a : A)
| Raise (e : exn).
Arguments Return {A} a.
Arguments Raise {A} e.

Definition bind {A B} (m : result A) (k : A -> result B) : result B :=
  match m with
  | Return a => k a
  | Raise e => Raise e
  end.

Declare Scope py_scope.
Delimit Scope py_scope with py.
Notation "x <- m ;; k" := (bind m (fun x => k))
  (at level 61, m at next level, right associativity) : py_scope.
Local Open Scope py_scope.

(** [try: body  except: return fallback] *)
Definition try_except {A} (body : result A) (fallback : A) : result A :=
  match body with
  | Return a => Return a
  | Raise _ => Return fallback
  end.

(** The values a cell of an uploaded table can hold, and that the helpers
    can be handed: text, a missing value (NaN / None), a number. *)
Inductive value : Type :=
| VStr (s : pystr)
| VNaN
| VNone
| VInt (z : Z).

(** ** DurationCodec *)

Definition unit_d : char := 100%N.
Definition unit_h : char := 104%N.
Definition unit_m : char := 109%N.
Definition unit_s : char := 115%N.

(** [int(part.replace(u, '')) * k] *)
Definition convert (u : char) (k : Z) (part : pystr) : result Z :=
  match py_int (remove_char u part) with
  | Some n => Return (n * k)%Z
  | None => Raise ValueError
  end.

(** What one pass of the [for part in parts] body adds to
    [total_seconds]: the [if]/[elif] chain of lines 123-134. *)
Definition part_seconds (part : pystr) : result Z :=
  if contains unit_d part then convert unit_d 86400 part
  else if contains unit_h part then convert unit_h 3600 part
  else if contains unit_m part then convert unit_m 60 part
  else if contains unit_s part then convert unit_s 1 part
  else Return 0%Z.

Fixpoint parts_loop (total_seconds : Z) (parts : list pystr) : result Z :=
  match parts with
  | [] => Return total_seconds
  | part :: rest =>
      n <- part_seconds part ;;
      parts_loop (total_seconds + n)%Z rest
  end.

(** [duration_str.strip()]: only text has the method. *)
Definition method_strip (v : value) : result pystr :=
  match v with
  | VStr s => Return (py_strip s)
  | _ => Raise AttributeError
  end.

(** The body of the [try] of [parse_duration_to_seconds]. *)
Definition parse_duration_body (duration_str : value) : result Z :=
  s <- method_strip duration_str ;;
  parts_loop 0 (py_split s).

Definition parse_duration_to_seconds (duration_str : value) : result Z :=
  try_except (parse_duration_body duration_str) 0%Z.

(** [int(x)] for a number: truncation towards zero. *)
Definition py_trunc (x : Q) : Z := Z.quot (Qnum x) (Zpos (Qden x)).

(** [x % m] for a positive [m]. *)
Definition py_mod (x m : Q) : Q := x - m * inject_Z (Qfloor (x / m)).

Definition Qltb (x y : Q) : bool := negb (Qle_bool y x).

(** *** Floats

    A finite float (binary64) is a number [m * 2^e] with [|m| < 2^53] and
    [-1074 <= e <= 971]; it is given here by its value.  [round_float q]
    is the number of that form nearest to [q], the one with the even [m]
    when two are equally near, without the upper bound on [e]: who
    rounds checks the range. *)
Definition pow2 (e : Z) : Q :=
  if (0 <=? e)%Z then inject_Z (2 ^ e) else 1 # Z.to_pos (2 ^ (- e)).

Definition round_half_even (q : Q) : Z :=
  let f := Qfloor q in
  match Qcompare (q - inject_Z f) (1 # 2) with
  | Lt => f
  | Gt => (f + 1)%Z
  | Eq => if Z.even f then f else (f + 1)%Z
  end.

(** The exponent [e] of the last place of a positive [q]:
    [2^52 <= q / 2^e < 2^53], and [-1074] for the numbers too small for
    that (the subnormal range). *)
Definition ulp_exponent (q : Q) : Z :=
  let f := (Z.log2 (Qnum q) - Z.log2 (Zpos (Qden q)))%Z in
  let l := if Qle_bool (pow2 f) q then f else (f - 1)%Z in
  Z.max (l - 52) (-1074).

Definition round_float (q : Q) : Q :=
  let a := Qabs q in
  if Qle_bool a 0 then 0
  else
    let e := ulp_exponent a in
    let r := Qred (inject_Z (round_half_even (a / pow2 e)) * pow2 e) in
    if Qle_bool 0 q then r else - r.

(** [x / y] for a float [x], or an integer whose quotient is in the float
    range, and a small integer [y]: the float nearest to the quotient. *)
Definition float_div (x y : Q) : Q := round_float (x / y).

(** [a / b] on integers, as the interpreter computes it: the float
    nearest to the quotient, [OverflowError] when that is beyond the
    largest float. *)
Definition in_float_range (x : Q) : bool :=
  negb (Qle_bool (pow2 1024) (Qabs x)).

Definition float_truediv (a b : Z) : result Q :=
  if (b =? 0)%Z then Raise ZeroDivisionError
  else
    let x := round_float (inject_Z a / inject_Z b) in
    if in_float_range x then Return x else Raise OverflowError.

(** [seconds] is the number handed over: a finite float, or an integer
    below [2^1024] (beyond, the interpreter cannot divide it and raises
    [OverflowError]).  [%] is exact on both; [/] rounds. *)
Definition format_seconds_to_duration (seconds : Q) : pystr :=
  if Qltb seconds 60 then
    str_of_Z (py_trunc seconds) ++ lit "초"
  else if Qltb seconds 3600 then
    str_of_Z (py_trunc (float_div seconds 60)) ++ lit "분"
  else if Qltb seconds 86400 then
    let hours := py_trunc (float_div seconds 3600) in
    let minutes := py_trunc (float_div (py_mod seconds 3600) 60) in
    str_of_Z hours ++ lit "시간 " ++ str_of_Z minutes ++ lit "분"
  else
    let days := py_trunc (float_div seconds 86400) in
    let hours := py_trunc (float_div (py_mod seconds 86400) 3600) in
    str_of_Z days ++ lit "일 " ++ str_of_Z hours ++ lit "시간".

(** [pd.notna(v)] on a scalar. *)
Definition pd_notna (v : value) : bool :=
  match v with
  | VNaN | VNone => false
  | _ => true
  end.

(** [v != ''] *)
Definition not_empty_str (v : value) : bool :=
  match v with
  | VStr [] => false
  | _ => true
  end.

(** [a / b] on the counts of the report and of the dashboard, carried as
    the exact quotient that the interpreter's float approximates (see
    [float_truediv] for the float itself): what is stated of these
    quotients is their division by zero, their sign and their range. *)
Definition py_truediv (a b : Z) : result Q :=
  if (b =? 0)%Z then Raise ZeroDivisionError
  else Return (inject_Z a / inject_Z b).

(** The [for duration in duration_series] loop with its two
    accumulators. *)
Fixpoint average_loop (total_seconds count : Z) (duration_series : list value)
  : result (Z * Z) :=
  match duration_series with
  | [] => Return (total_seconds, count)
  | duration :: rest =>
      if pd_notna duration && not_empty_str duration then
        seconds <- parse_duration_to_seconds duration ;;
        if (0 <? seconds)%Z
        then average_loop (total_seconds + seconds)%Z (count + 1)%Z rest
        else average_loop total_seconds count rest
      else average_loop total_seconds count rest
  end.

Definition not_applicable : pystr := lit "N/A".

Definition calculate_average_body (duration_series : list value)
  : result pystr :=
  acc <- average_loop 0 0 duration_series ;;
  let (total_seconds, count) := acc in
  if (0 <? count)%Z then
    avg_seconds <- float_truediv total_seconds count ;;
    Return (format_seconds_to_duration avg_seconds)
  else Return not_applicable.

Definition calculate_average_duration (duration_series : list value)
  : result pystr :=
  try_except (calculate_average_body duration_series) not_applicable.

(** *** The contract in the specification's words

    These definitions follow the specification, not the code; the
    properties below compare the code with them. *)

Definition is_ascii_digit (c : char) : bool := ((48 <=? c) && (c <=? 57))%N.

(** The recognised units and their multipliers. *)
Definition unit_multiplier (c : char) : option Z :=
  if (c =? unit_d)%N then Some 86400%Z
  else if (c =? unit_h)%N then Some 3600%Z
  else if (c =? unit_m)%N then Some 60%Z
  else if (c =? unit_s)%N then Some 1%Z
  else None.

Definition digits_value (ds : pystr) : Z :=
  fold_left (fun acc c => (10 * acc + (Z.of_N c - 48))%Z) ds 0%Z.

(** A token that is "a non-negative integer immediately followed by one
    unit letter" has a value; any other token has none. *)
Definition token_value (t : pystr) : option Z :=
  match rev t with
  | [] => None
  | u :: rds =>
      match unit_multiplier u, rds with
      | Some k, _ :: _ =>
          if forallb is_ascii_digit rds
          then Some (digits_value (rev rds) * k)%Z
          else None
      | _, _ => None
      end
  end.





(** A token mentions a unit when it contains one of [d], [h], [m], [s]. *)
Definition mentions_unit (t : pystr) : bool :=
  contains unit_d t || contains unit_h t || contains unit_m t
  || contains unit_s t.

(** The unit letter that decides how a part is read: the first of [d],
    [h], [m], [s] that occurs anywhere in it, with its multiplier. *)
Definition first_unit (t : pystr) : option (char * Z) :=
  if contains unit_d t then Some (unit_d, 86400%Z)
  else if contains unit_h t then Some (unit_h, 3600%Z)
  else if contains unit_m t then Some (unit_m, 60%Z)
  else if contains unit_s t then Some (unit_s, 1%Z)
  else None.

(** The second count an entry parses to. *)
Definition seconds_of (v : value) : Z :=
  match parse_duration_to_seconds v with
  | Return z => z
  | Raise _ => 0%Z
  end.

(** "Entries that are present and parse to a strictly positive second
    count." *)
Definition qualifies (v : value) : bool :=
  pd_notna v && not_empty_str v && (0 <? seconds_of v)%Z.

Definition sum_Z (l : list Z) : Z := fold_right Z.add 0%Z l.

(** A duration of [10^4301 - 1] seconds, its integer one digit longer
    than [int] reads; and one of [10^400] seconds, beyond the largest
    float. *)
Definition long_duration : pystr := repeat 57%N 4301 ++ lit "s".
Definition huge_duration : pystr := 49%N :: repeat 48%N 400 ++ lit "s".


(** The value of [x] truncated to its two largest applicable units. *)
Definition two_unit_bucket (x : Q) : Z :=
  if Qltb x 60 then Qfloor x
  else if Qltb x 3600 then (60 * Qfloor (x / 60))%Z
  else if Qltb x 86400 then
    (3600 * Qfloor (x / 3600) + 60 * Qfloor (py_mod x 3600 / 60))%Z
  else
    (86400 * Qfloor (x / 86400) + 3600 * Qfloor (py_mod x 86400 / 3600))%Z.

(** ** EventAggregator: the uploaded table *)

(** A pandas [DataFrame] as read from CSV: the header and the rows.  A
    row shorter than the header is missing its last cells.  Columns are
    text columns (object dtype): they hold text, NaN for an empty field,
    and possibly numbers, which are not text for the [.str] methods.
    Columns that pandas types as numeric because they hold no text at
    all, on which [.str] itself is refused, are not covered. *)
Record DataFrame : Type := {
  columns : list pystr;
  rows : list (list value)
}.

(** [len(df)] *)
Definition len (df : DataFrame) : Z := Z.of_nat (length (rows df)).

(** [name in df.columns] *)
Definition has_column (name : pystr) (df : DataFrame) : bool :=
  existsb (pystr_eqb name) (columns df).

Fixpoint column_index (name : pystr) (cols : list pystr) : option nat :=
  match cols with
  | [] => None
  | c :: rest =>
      if pystr_eqb name c then Some O
      else option_map S (column_index name rest)
  end.

Definition cell_at (i : nat) (row : list value) : value := nth i row VNaN.

(** [df[name]], read under the guard [name in df.columns]. *)
Definition column (name : pystr) (df : DataFrame) : list value :=
  match column_index name (columns df) with
  | Some i => map (cell_at i) (rows df)
  | None => []
  end.

Definition value_eq_dec (a b : value) : {a = b} + {a <> b}.
Proof.
  decide equality; [apply (list_eq_dec N.eq_dec) | apply Z.eq_dec].
Defined.

(** [len(df[mask])] for a boolean mask computed cell by cell. *)
Definition count_where (mask : value -> bool) (col : list value) : Z :=
  Z.of_nat (length (filter mask col)).

(** [cell == 'text'] *)
Definition equals_str (s : pystr) (v : value) : bool :=
  match v with
  | VStr t => pystr_eqb t s
  | _ => false
  end.

(** [Series.nunique()]: the distinct values that are not missing. *)
Definition nunique (col : list value) : Z :=
  Z.of_nat (length (nodup value_eq_dec (filter pd_notna col))).

(** [str.lower()] on the ASCII letters.  The lower-case form of any other
    cased letter is never made of the ASCII letters the keyword lists
    below are written in, so membership in those lists is decided as the
    interpreter decides it. *)
Definition ascii_lower (c : char) : char :=
  if ((65 <=? c) && (c <=? 90))%N then (c + 32)%N else c.

Definition py_lower (s : pystr) : pystr := map ascii_lower s.

(** [Series.str.lower()], cell by cell: what is not text becomes NaN. *)
Definition str_lower (v : value) : value :=
  match v with
  | VStr s => VStr (py_lower s)
  | _ => VNaN
  end.


(** [Series.isin(keywords)], cell by cell. *)
Definition isin (keywords : list pystr) (v : value) : bool :=
  match v with
  | VStr s => existsb (pystr_eqb s) keywords
  | _ => false
  end.

Definition severity_aliases : list pystr :=
  [lit "Severity"; lit "severity"; lit "SEVERITY"; lit "심각도";
   lit "Level"; lit "level"].

(** The [for col in [...]] search of lines 462-466 (and 167-171). *)
Definition find_severity_col (df : DataFrame) : option pystr :=
  find (fun col => has_column col df) severity_aliases.

Definition critical_keywords : list pystr :=
  [lit "disaster"; lit "high"; lit "fatal"; lit "critical"; lit "error"].
Definition warning_keywords : list pystr :=
  [lit "average"; lit "warning"; lit "major"; lit "medium"].
Definition info_keywords : list pystr :=
  [lit "information"; lit "info"; lit "low"; lit "not classified"].

(** The mask [df[severity_col].str.lower().isin(keywords)]. *)
Definition severity_mask (keywords : list pystr) (v : value) : bool :=
  isin keywords (str_lower v).

(** [critical_events], [warning_events], [info_events] of
    [generate_report], lines 468-475. *)
Definition report_severity_counts (df : DataFrame) : Z * Z * Z :=
  match find_severity_col df with
  | Some severity_col =>
      let col := column severity_col df in
      (count_where (severity_mask critical_keywords) col,
       count_where (severity_mask warning_keywords) col,
       count_where (severity_mask info_keywords) col)
  | None => (0, 0, 0)%Z
  end.




(** *** The four bands in the specification's words

    These definitions follow the specification and take nothing from the
    counting of the code: the labels of each band are written out, case
    is ignored by comparing in upper case, and the severity column is
    looked up among the accepted aliases.  The specification does not
    list the labels of the informational band ("the remainder of
    recognized severities"); they are the four that the application shows
    as informational. *)

Inductive band : Set := Critical | Warning | Informational | Unclassified.

Definition band_eqb (a b : band) : bool :=
  match a, b with
  | Critical, Critical | Warning, Warning
  | Informational, Informational | Unclassified, Unclassified => true
  | _, _ => false
  end.

Definition band_labels (b : band) : list pystr :=
  match b with
  | Critical =>
      [lit "disaster"; lit "high"; lit "fatal"; lit "critical"; lit "error"]
  | Warning => [lit "average"; lit "warning"; lit "major"; lit "medium"]
  | Informational =>
      [lit "information"; lit "info"; lit "low"; lit "not classified"]
  | Unclassified => []
  end.

Definition fold_case (c : char) : char :=
  if ((97 <=? c) && (c <=? 122))%N then (c - 32)%N else c.


(** Two labels are the same when they differ in case only. *)
Definition same_label (a b : pystr) : bool :=
  pystr_eqb (map fold_case a) (map fold_case b).

Definition in_band (b : band) (label : pystr) : bool :=
  existsb (same_label label) (band_labels b).

(** The band of a row from its severity, [None] when the table has no
    severity column; a label that is not text or not recognized is
    unclassified. *)
Definition band_of_severity (severity : option value) : band :=
  match severity with
  | Some (VStr label) =>
      if in_band Critical label then Critical
      else if in_band Warning label then Warning
      else if in_band Informational label then Informational
      else Unclassified
  | _ => Unclassified
  end.

Definition accepted_aliases : list pystr :=
  [lit "Severity"; lit "severity"; lit "SEVERITY"; lit "심각도";
   lit "Level"; lit "level"].

(** The severity of every row, under the first accepted alias that the
    table has as a column. *)
Fixpoint severities_under (aliases : list pystr) (df : DataFrame)
  : list (option value) :=
  match aliases with
  | [] => map (fun _ => None) (rows df)
  | alias :: others =>
      if has_column alias df then map Some (column alias df)
      else severities_under others df
  end.

Definition row_bands (df : DataFrame) : list band :=
  map band_of_severity (severities_under accepted_aliases df).

Definition band_count (b : band) (df : DataFrame) : Z :=
  Z.of_nat (length (filter (band_eqb b) (row_bands df))).

(** The four rows of the specification's end-to-end scenario. *)
Definition scenario_events : DataFrame :=
  {| columns := [lit "Host"; lit "Severity"];
     rows := [[VStr (lit "web1"); VStr (lit "Disaster")];
              [VStr (lit "web1"); VStr (lit "Warning")];
              [VStr (lit "db1"); VStr (lit "Warning")];
              [VStr (lit "db2"); VStr (lit "Information")]] |}.

(** ** ReportBuilder *)

(** *** Formatting of integers and of the clock *)

(** Reversed digits with a comma before every fourth; [k] digits of the
    current group have been written. *)
Fixpoint group_thousands (k : nat) (rds : pystr) : pystr :=
  match rds with
  | [] => []
  | c :: r =>
      match k with
      | 3%nat => 44%N :: c :: group_thousands 1 r
      | _ => c :: group_thousands (S k) r
      end
  end.

(** [f"{n:,}"] *)
Definition fmt_thousands (n : Z) : pystr :=
  let body := rev (group_thousands 0 (rev (str_of_N (Z.abs_N n)))) in
  if (n <? 0)%Z then minus_sign :: body else body.

(** [f"{n:2d}"] *)
Definition fmt_2d (n : Z) : pystr :=
  let s := str_of_Z n in
  match s with
  | [_] => 32%N :: s
  | _ => s
  end.

(** [f"{n:02d}"] *)
Definition fmt_02d (n : Z) : pystr :=
  match str_of_N (Z.abs_N n) with
  | [c] => if (n <? 0)%Z then [minus_sign; c] else [48%N; c]
  | _ => str_of_Z n
  end.

(** [str(v)], as an f-string field writes a cell. *)
Definition py_str (v : value) : pystr :=
  match v with
  | VStr s => s
  | VNaN => lit "nan"
  | VNone => lit "None"
  | VInt z => str_of_Z z
  end.

(** A reading of [datetime.now()]. *)
Record datetime : Set := {
  dt_year : N;
  dt_month : N;
  dt_day : N;
  dt_hour : N;
  dt_minute : N;
  dt_second : N
}.

Definition pad2 (n : N) : pystr :=
  if (n <? 10)%N then 48%N :: str_of_N n else str_of_N n.

(** [t.strftime('%Y-%m-%d %H:%M:%S')] *)
Definition strftime_seconds (t : datetime) : pystr :=
  str_of_N (dt_year t) ++ lit "-" ++ pad2 (dt_month t) ++ lit "-"
  ++ pad2 (dt_day t) ++ lit " " ++ pad2 (dt_hour t) ++ lit ":"
  ++ pad2 (dt_minute t) ++ lit ":" ++ pad2 (dt_second t).

(** *** What the libraries compute *)

(** An hour of [hourly_dist]: pandas carries the hours as integers, and
    as floats when a time of the column is missing. *)
Inductive hour_key : Type :=
| HourInt (hour : Z)
| HourFloat (hour : Q).

(** The values lines 485-496 (and 498-504) bind from the [Time] column. *)
Record TimeInfo : Type := {
  time_range : pystr;
  total_days : Z;
  peak_hour : pystr;
  daily_avg : Q;
  daily_max : Z;
  daily_min : Z;
  peak_hours : list (hour_key * Z)
}.

(** The work of pandas and of the format mini-language that the embedding
    does not look into:
    - [fmt_1f x] is [f"{x:.1f}"];
    - [value_counts col] are the items of [col.value_counts()], the most
      frequent value first;
    - [time_statistics col] is [pd.to_datetime(col)] followed by the
      grouping of lines 485-496, with [peak_hours] the items of
      [hourly_dist.nlargest(5)]; it raises when pandas does;
    - [series_mean l] is [Series.mean()] of a column of the integers [l],
      a float that pandas gets by adding the values as floats, in an
      order of its own; [None] is the NaN of a column without values. *)
Record Externals : Type := {
  fmt_1f : Q -> pystr;
  value_counts : list value -> list (value * Z);
  time_statistics : list value -> result TimeInfo;
  series_mean : list Z -> option Q
}.

(** Lines 498-504: no [Time] column. *)
Definition no_time_info : TimeInfo :=
  {| time_range := lit "N/A";
     total_days := 0;
     peak_hour := lit "N/A";
     daily_avg := 0;
     daily_max := 0;
     daily_min := 0;
     peak_hours := [] |}.

(** What [st.session_state] holds of the uploads. *)
Record SessionState : Type := {
  event_data : option DataFrame;
  event_files : option (list (pystr * DataFrame))
}.

(** The columns of all frames, each once, in order of appearance. *)
Definition union_columns (dfs : list DataFrame) : list pystr :=
  rev (nodup (list_eq_dec N.eq_dec) (rev (flat_map columns dfs))).

Definition reindex_row (old_cols new_cols : list pystr) (row : list value)
  : list value :=
  map (fun c => match column_index c old_cols with
                | Some i => cell_at i row
                | None => VNaN
                end) new_cols.

(** [pd.concat(dfs, ignore_index=True)] *)
Definition pd_concat (dfs : list DataFrame) : result DataFrame :=
  match dfs with
  | [] => Raise ValueError
  | _ =>
      let cols := union_columns dfs in
      Return {| columns := cols;
                rows := flat_map
                          (fun df => map (reindex_row (columns df) cols)
                                         (rows df)) dfs |}
  end.

(** [Series.max()]; [None] is NaN. *)
Definition maximum (l : list Z) : option Z :=
  match l with
  | [] => None
  | x :: r => Some (fold_left Z.max r x)
  end.

Fixpoint map_result {A B : Type} (f : A -> result B) (l : list A)
  : result (list B) :=
  match l with
  | [] => Return []
  | a :: r =>
      b <- f a ;;
      bs <- map_result f r ;;
      Return (b :: bs)
  end.

(** Lines 507-515: [avg_duration_str] and [max_duration_str].  The
    maximum is handed over as the integer it is (pandas holds it as an
    [int64], whose quotients are those of the integer below [2^53]). *)
Definition duration_strings (E : Externals) (df : DataFrame)
  : result (pystr * pystr) :=
  if has_column (lit "Duration") df then
    duration_seconds <-
      map_result parse_duration_to_seconds (column (lit "Duration") df) ;;
    let positive := filter (fun z => (0 <? z)%Z) duration_seconds in
    Return
      (match series_mean E positive with
       | Some avg_duration => format_seconds_to_duration avg_duration
       | None => not_applicable
       end,
       match maximum positive with
       | Some max_duration =>
           format_seconds_to_duration (inject_Z max_duration)
       | None => not_applicable
       end)
  else Return (not_applicable, not_applicable).

Definition nl : pystr := [10%N].
Definition rule : pystr := repeat 61%N 80.

(** [part / total * 100] *)
Definition percent (part total : Z) : result Q :=
  q <- py_truediv part total ;;
  Return (q * 100).

(** The same quotients where the dashboard guards them: the average of
    [perform_simple_ai_analysis] (line 215,
    [total_events / unique_hosts if unique_hosts > 0 else 0]) and the
    shares of the severity chart (lines 1322 and 1372,
    [... if total_events > 0 else 0]). *)
Definition ai_avg_events_per_host (total_events unique_hosts : Z)
  : result Q :=
  if (0 <? unique_hosts)%Z then py_truediv total_events unique_hosts
  else Return 0.

Definition chart_percentage (count total_events : Z) : result Q :=
  if (0 <? total_events)%Z then percent count total_events
  else Return 0.

(** [issue[:100]] followed by the ellipsis marker; only text can be
    sliced. *)
Definition truncate_issue (issue : value) : result pystr :=
  match issue with
  | VStr s =>
      Return (firstn 100 s
              ++ if (100 <? length s)%nat then lit "..." else [])
  | _ => Raise TypeError
  end.

(** The summary table: the three columns of [summary_data]. *)
Record SummaryData : Type := {
  summary_items : list pystr;
  summary_values : list pystr;
  summary_ratios : list pystr
}.

(** What the user is shown: the error of line 443, or the preview text
    with the table offered for download. *)
Inductive outcome : Type :=
| NoData (message : pystr)
| Generated (report_content : pystr) (summary_data : SummaryData).

Section Report.

Variable E : Externals.

(** The reading of the clock written into the header (line 523). *)
Variable now : datetime.

(** Lines 549-551. *)
Fixpoint host_lines (i : Z) (top_hosts : list (value * Z))
         (total_events : Z) : result pystr :=
  match top_hosts with
  | [] => Return []
  | (host, count) :: rest =>
      percentage <- percent count total_events ;;
      more <- host_lines (i + 1) rest total_events ;;
      Return (lit "  " ++ fmt_2d i ++ lit ". " ++ py_str host ++ lit ": "
              ++ fmt_thousands count ++ lit "건 ("
              ++ fmt_1f E percentage ++ lit "%)" ++ nl ++ more)
  end.

(** Lines 563-566; the format [02d] takes an integer and raises
    [ValueError] on a float. *)
Fixpoint hour_lines (hours : list (hour_key * Z)) : result pystr :=
  match hours with
  | [] => Return []
  | (HourInt hour, count) :: rest =>
      more <- hour_lines rest ;;
      Return (lit "  - " ++ fmt_02d hour ++ lit "시: "
              ++ fmt_thousands count ++ lit "건" ++ nl ++ more)
  | (HourFloat _, _) :: _ => Raise ValueError
  end.

(** Lines 571-574. *)
Fixpoint issue_lines (i : Z) (top_issues : list (value * Z))
         (total_events : Z) : result pystr :=
  match top_issues with
  | [] => Return []
  | (issue, count) :: rest =>
      percentage <- percent count total_events ;;
      shown <- truncate_issue issue ;;
      more <- issue_lines (i + 1) rest total_events ;;
      Return (fmt_2d i ++ lit ". " ++ shown ++ nl
              ++ lit "    - 발생 횟수: " ++ fmt_thousands count ++ lit "건 ("
              ++ fmt_1f E percentage ++ lit "%)" ++ nl ++ more)
  end.

(** Lines 454-611 on the table [df]. *)
Definition build_report (df : DataFrame) : result outcome :=
  time_info <-
    (if has_column (lit "Time") df
     then time_statistics E (column (lit "Time") df)
     else Return no_time_info) ;;
  let total_events := len df in
  let '(critical_events, warning_events, info_events) :=
    report_severity_counts df in
  let problem_events :=
    if has_column (lit "Status") df
    then count_where (equals_str (lit "PROBLEM")) (column (lit "Status") df)
    else 0%Z in
  let ok_events :=
    if has_column (lit "Status") df
    then count_where (equals_str (lit "OK")) (column (lit "Status") df)
    else 0%Z in
  let unique_hosts :=
    if has_column (lit "Host") df
    then nunique (column (lit "Host") df) else 0%Z in
  let top_hosts :=
    if has_column (lit "Host") df
    then firstn 10 (value_counts E (column (lit "Host") df)) else [] in
  durations <- duration_strings E df ;;
  let '(avg_duration_str, max_duration_str) := durations in
  let top_issues :=
    if has_column (lit "Description") df
    then firstn 15 (value_counts E (column (lit "Description") df))
    else [] in
  critical_pct <- percent critical_events total_events ;;
  warning_pct <- percent warning_events total_events ;;
  info_pct <- percent info_events total_events ;;
  per_host <- py_truediv total_events unique_hosts ;;
  let header :=
    lit "# ITO 이벤트 종합 리포트" ++ nl
    ++ lit "        " ++ nl
    ++ lit "생성일시: " ++ strftime_seconds now ++ nl
    ++ lit "분석 기간: " ++ time_range time_info ++ nl
    ++ lit "총 분석 일수: " ++ str_of_Z (total_days time_info) ++ lit "일" ++ nl
    ++ nl
    ++ rule ++ nl
    ++ nl
    ++ lit "## 📊 전체 요약" ++ nl
    ++ lit "- 총 이벤트 수: " ++ fmt_thousands total_events ++ nl
    ++ lit "- 일평균 이벤트: " ++ fmt_1f E (daily_avg time_info) ++ lit "건" ++ nl
    ++ lit "- 일 최대 이벤트: " ++ fmt_thousands (daily_max time_info)
    ++ lit "건" ++ nl
    ++ lit "- 일 최소 이벤트: " ++ fmt_thousands (daily_min time_info)
    ++ lit "건" ++ nl
    ++ nl
    ++ lit "## 🚨 심각도 분석" ++ nl
    ++ lit "- 심각 이벤트 (Fatal/Critical/High): "
    ++ fmt_thousands critical_events ++ lit "건 ("
    ++ fmt_1f E critical_pct ++ lit "%)" ++ nl
    ++ lit "- 경고 이벤트 (Major/Average/Warning): "
    ++ fmt_thousands warning_events ++ lit "건 ("
    ++ fmt_1f E warning_pct ++ lit "%)" ++ nl
    ++ lit "- 정보 이벤트 (Information/Low): "
    ++ fmt_thousands info_events ++ lit "건 ("
    ++ fmt_1f E info_pct ++ lit "%)" ++ nl
    ++ lit "- 해결된 이벤트 (OK): " ++ fmt_thousands ok_events ++ lit "건" ++ nl
    ++ lit "- 문제 이벤트 (PROBLEM): " ++ fmt_thousands problem_events
    ++ lit "건" ++ nl
    ++ nl
    ++ lit "## 🖥️ 호스트 분석" ++ nl
    ++ lit "- 영향받은 호스트 수: " ++ str_of_Z unique_hosts ++ lit "개" ++ nl
    ++ lit "- 호스트당 평균 이벤트: " ++ fmt_1f E per_host ++ lit "건" ++ nl
    ++ nl
    ++ lit "### 가장 많은 이벤트 발생 호스트 Top 10:" ++ nl in
  hosts <- host_lines 1 top_hosts total_events ;;
  let time_block :=
    nl
    ++ lit "## ⏰ 시간 분석" ++ nl
    ++ lit "- 피크 시간대: " ++ peak_hour time_info ++ lit "시" ++ nl
    ++ lit "- 평균 이벤트 지속 시간: " ++ avg_duration_str ++ nl
    ++ lit "- 최대 이벤트 지속 시간: " ++ max_duration_str ++ nl
    ++ nl
    ++ lit "### 시간대별 이벤트 분포:" ++ nl in
  hours <- hour_lines (peak_hours time_info) ;;
  let issues_title := nl ++ lit "## 🚨 주요 문제 (Top 15)" ++ nl in
  issues <- issue_lines 1 top_issues total_events ;;
  let footer := nl ++ rule ++ nl in
  critical_ratio <- percent critical_events total_events ;;
  warning_ratio <- percent warning_events total_events ;;
  info_ratio <- percent info_events total_events ;;
  Return
    (Generated
       (header ++ hosts ++ time_block ++ hours
        ++ issues_title ++ issues ++ footer)
       {| summary_items :=
            [lit "총 이벤트"; lit "일평균 이벤트"; lit "심각 이벤트";
             lit "경고 이벤트"; lit "정보 이벤트"; lit "영향 호스트"];
          summary_values :=
            [fmt_thousands total_events; fmt_1f E (daily_avg time_info);
             fmt_thousands critical_events; fmt_thousands warning_events;
             fmt_thousands info_events; str_of_Z unique_hosts];
          summary_ratios :=
            [lit "-"; lit "-"; fmt_1f E critical_ratio ++ lit "%";
             fmt_1f E warning_ratio ++ lit "%";
             fmt_1f E info_ratio ++ lit "%"; lit "-"] |}).

Definition no_data_message : pystr :=
  lit "리포트를 생성할 데이터가 없습니다. 먼저 데이터를 업로드하세요.".

(** [generate_report], lines 439-611. *)
Definition generate_report (st : SessionState) : result outcome :=
  match event_data st, event_files st with
  | None, None => Return (NoData no_data_message)
  | Some data, _ => build_report data
  | None, Some files =>
      df <- pd_concat (map snd files) ;;
      build_report df
  end.

End Report.

(** The report text and the table of an outcome. *)
Definition report_text (o : result outcome) : option pystr :=
  match o with
  | Return (Generated text _) => Some text
  | _ => None
  end.

Definition report_table (o : result outcome) : option SummaryData :=
  match o with
  | Return (Generated _ table) => Some table
  | _ => None
  end.

(** A table with only its header row, no [Time] column. *)
Definition empty_events : DataFrame :=
  {| columns := [lit "Host"; lit "Severity"; lit "Status"]; rows := [] |}.

(** One event whose table has no [Host] column. *)
Definition hostless_events : DataFrame :=
  {| columns := [lit "Severity"; lit "Status"];
     rows := [[VStr (lit "High"); VStr (lit "PROBLEM")]] |}.

Definition uploaded (df : DataFrame) : SessionState :=
  {| event_data := Some df; event_files := None |}.

Definition kept_as_files (files : list (pystr * DataFrame)) : SessionState :=
  {| event_data := None; event_files := Some files |}.

(** ** The dashboard around the core *)

(** *** Severity on the analysis tab *)

(** The metric of line 944: the labels as written, in the column named
    [Severity]. *)
Definition dashboard_critical_count (df : DataFrame) : Z :=
  if has_column (lit "Severity") df
  then count_where (isin [lit "Disaster"; lit "High"])
                   (column (lit "Severity") df)
  else 0%Z.

(** Line 1235: [.astype(str).str.lower().str.strip()], cell by cell. *)
Definition normalized_label (v : value) : pystr :=
  py_strip (py_lower (py_str v)).

Definition normalized_labels (severity_col : pystr) (df : DataFrame)
  : list pystr :=
  map normalized_label (column severity_col df).

(** [severity_counts.get(k, 0)] and [k in severity_counts.index] for
    [severity_counts = labels.value_counts()]: how often [k] occurs. *)
Definition counts_get (labels : list pystr) (k : pystr) : Z :=
  Z.of_nat (count_occ (list_eq_dec N.eq_dec) labels k).

Definition counts_has (labels : list pystr) (k : pystr) : bool :=
  (0 <? counts_get labels k)%Z.

Definition high_risk_keywords : list pystr :=
  [lit "fatal"; lit "critical"; lit "error"; lit "high"; lit "disaster"].

(** Line 1371. *)
Definition high_risk_count (labels : list pystr) : Z :=
  sum_Z (map (counts_get labels)
             (filter (counts_has labels) high_risk_keywords)).

(** *** The recent-window comparison of the analysis prompt *)

(** Lines 196-208 of [perform_simple_ai_analysis], on the [Time] column as
    [pd.to_datetime] leaves it: each cell a timestamp in nanoseconds, or
    [None] for NaT (which compares false with everything and is skipped
    by [max]). *)
Definition timestamp := option Z.

(** [pd.Timedelta(hours=h)] *)
Definition hours (h : Z) : Z := (h * 3600 * 1000000000)%Z.

(** [col.max()] *)
Definition latest_time (times : list timestamp) : timestamp :=
  fold_left (fun acc t =>
               match acc, t with
               | Some a, Some b => Some (Z.max a b)
               | None, _ => t
               | _, None => acc
               end) times None.

(** [t - pd.Timedelta(hours=h)] *)
Definition minus_hours (t : timestamp) (h : Z) : timestamp :=
  option_map (fun a => (a - hours h)%Z) t.

(** [t >= bound] and [t < bound] *)
Definition ts_geb (t bound : timestamp) : bool :=
  match t, bound with
  | Some a, Some b => (b <=? a)%Z
  | _, _ => false
  end.

Definition ts_ltb (t bound : timestamp) : bool :=
  match t, bound with
  | Some a, Some b => (a <? b)%Z
  | _, _ => false
  end.

Definition count_times (mask : timestamp -> bool) (times : list timestamp)
  : Z :=
  Z.of_nat (length (filter mask times)).

Definition recent_24h (times : list timestamp) : Z :=
  let latest := latest_time times in
  count_times (fun t => ts_geb t (minus_hours latest 24)) times.

Definition previous_24h (times : list timestamp) : Z :=
  let latest := latest_time times in
  count_times (fun t => ts_geb t (minus_hours latest 48)
                        && ts_ltb t (minus_hours latest 24)) times.

(** ["trend"] and ["change_rate"], lines 206-207. *)
Definition trend (recent previous : Z) : pystr :=
  if (previous <? recent)%Z then lit "증가" else lit "감소".

Definition change_rate (recent previous : Z) : result Q :=
  if (0 <? previous)%Z then
    q <- py_truediv (recent - previous) previous ;;
    Return (q * 100)
  else Return 0.

(** *** Merging the uploads *)

(** [df.empty]: no rows, or no columns. *)
Definition df_empty (df : DataFrame) : bool :=
  match rows df, columns df with
  | [], _ | _, [] => true
  | _, _ => false
  end.

(** [file_data[name] = ...] of line 701 on the dict [file_data], kept as
    its items in order: a name that is already a key keeps its place and
    gets the new table. *)
Fixpoint dict_set (name : pystr) (df : DataFrame)
         (file_data : list (pystr * DataFrame)) : list (pystr * DataFrame) :=
  match file_data with
  | [] => [(name, df)]
  | (key, old) :: rest =>
      if pystr_eqb key name then (key, df) :: rest
      else (key, old) :: dict_set name df rest
  end.

(** The loop of lines 672-709 over the files that could be read, each
    with its name and its table: the dict it leaves. *)
Definition file_data_of (uploaded_files : list (pystr * DataFrame))
  : list (pystr * DataFrame) :=
  fold_left (fun file_data file => dict_set (fst file) (snd file) file_data)
            uploaded_files [].

(** [total_events] of lines 669-709, shown as the total of the upload:
    every file read is counted. *)
Definition upload_total (uploaded_files : list (pystr * DataFrame)) : Z :=
  sum_Z (map (fun file => len (snd file)) uploaded_files).

(** Lines 779-791 on the dict [file_data]: [merged_df] as [pd.concat]
    gives it, before the rows are put in order of time; [None] when no
    file holds data (the error of line 788). *)
Definition merged_frame (file_data : list (pystr * DataFrame))
  : option (result DataFrame) :=
  match filter (fun df => negb (df_empty df)) (map snd file_data) with
  | [] => None
  | all_dfs => Some (pd_concat all_dfs)
  end.

(** A table as [read_csv] gives it: column names all different, every row
    as wide as the header. *)
Definition well_formed (df : DataFrame) : Prop :=
  NoDup (columns df)
  /\ Forall (fun row => length row = length (columns df)) (rows df).

(** One step of a computation that is followed statement by statement: if
    [m] raises, so does the whole, whatever the clock reads; otherwise go
    on with its value [x]. *)
Ltac step_or_raise m x :=
  let e := fresh "e" in
  destruct m as [x|e]; [cbn [bind] | exists (Raise e); reflexivity].

(* ================================================================= *)
(** * Properties *)


Example lit_ascii : lit "1h 30m" = [49; 104; 32; 51; 48; 109]%N.
Proof. reflexivity. Qed.

Example lit_hangul : lit "시간" = [0xC2DC; 0xAC04]%N.
Proof. reflexivity. Qed.

Example split_mixed :
  py_split (py_strip (lit "  2d   3h	x ")) = [lit "2d"; lit "3h"; lit "x"].
Proof. reflexivity. Qed.

Example int_samples :
  map py_int [lit "5"; lit "+5"; lit "-5"; lit "1_000"; lit "007"; lit " 5 ";
              lit "_1"; lit "1_"; lit "1__0"; lit ""; lit "+"; lit "- 5";
              lit "+-5"; lit "5.0"; [0x661; 0x662]%N; [0x1c; 53]%N]
  = [Some 5; Some 5; Some (-5); Some 1000; Some 7; Some 5;
     None; None; None; None; None; None;
     None; None; Some 12; None]%Z.
Proof. reflexivity. Qed.

Example str_of_Z_samples :
  map str_of_Z [0; 7; 4500; -12]%Z = [lit "0"; lit "7"; lit "4500"; lit "-12"].
Proof. reflexivity. Qed.

Example parse_samples :
  map (fun s => parse_duration_to_seconds (VStr s))
      [lit "1h 30m"; lit "45m"; lit "2d 3h"; lit ""; lit "garbage";
       lit "-5m"; lit "1h bad"; lit "1h 5x"; lit "d5"; lit "1m30s"]
  = map Return [5400; 2700; 183600; 0; 0; -300; 0; 3600; 432000; 0]%Z.
Proof. reflexivity. Qed.

Example format_samples :
  map format_seconds_to_duration [5400; 59; 60; 3599; 86400; 100000; 4500]%Q
  = [lit "1시간 30분"; lit "59초"; lit "1분"; lit "59분"; lit "1일 0시간";
     lit "1일 3시간"; lit "1시간 15분"].
Proof. vm_compute. reflexivity. Qed.

(** ** Strings: stripping and splitting *)

Section DropWhile.

Variable p : char -> bool.

Lemma drop_while_decompose (s : pystr) :
  exists w, s = w ++ drop_while p s /\ forallb p w = true.
Proof.
  induction s as [|c r IH]; simpl.
  - exists []. split; reflexivity.
  - destruct (p c) eqn:Hc.
    + destruct IH as (w & Hw & Hall). exists (c :: w). simpl.
      rewrite Hc, Hall. split; [f_equal; exact Hw | reflexivity].
    + exists []. split; reflexivity.
Qed.

Lemma drop_while_incl (s : pystr) (x : char) :
  In x (drop_while p s) -> In x s.
Proof.
  induction s as [|c r IH]; simpl; [tauto|].
  destruct (p c); simpl; intuition.
Qed.

Lemma rstrip_by_incl (s : pystr) (x : char) :
  In x (rstrip_by p s) -> In x s.
Proof.
  unfold rstrip_by. intros H. apply in_rev in H.
  apply drop_while_incl in H. now apply in_rev.
Qed.

Lemma rstrip_by_decompose (s : pystr) :
  exists w, s = rstrip_by p s ++ w /\ forallb p w = true.
Proof.
  unfold rstrip_by.
  destruct (drop_while_decompose (rev s)) as (w & Hw & Hall).
  exists (rev w). split.
  - rewrite <- rev_app_distr, <- Hw. symmetry. apply rev_involutive.
  - rewrite forallb_forall in *. intros x Hx. apply Hall. now apply in_rev.
Qed.


Lemma rstrip_by_last (s : pystr) (c : char) :
  p c = false -> rstrip_by p (s ++ [c]) = s ++ [c].
Proof.
  intros H. unfold rstrip_by. rewrite rev_app_distr. simpl.
  rewrite H. simpl. now rewrite rev_involutive.
Qed.

End DropWhile.

Lemma split_from_blanks (cur w : pystr) :
  forallb is_space w = true ->
  split_from cur w = match cur with [] => [] | _ => [cur] end.
Proof.
  revert cur. induction w as [|c r IH]; intros cur H; simpl in *.
  - reflexivity.
  - apply andb_true_iff in H as [Hc Hr]. rewrite Hc.
    destruct cur; rewrite (IH [] Hr); reflexivity.
Qed.

Lemma split_from_trailing_blanks (cur s w : pystr) :
  forallb is_space w = true ->
  split_from cur (s ++ w) = split_from cur s.
Proof.
  intros Hw. revert cur. induction s as [|c r IH]; intros cur; simpl.
  - now apply split_from_blanks.
  - destruct (is_space c); [destruct cur|]; now rewrite IH.
Qed.

Lemma split_leading_blanks (s : pystr) :
  split_from [] (drop_while is_space s) = split_from [] s.
Proof.
  induction s as [|c r IH]; simpl; [reflexivity|].
  destruct (is_space c) eqn:Hc; [exact IH|].
  simpl. now rewrite Hc.
Qed.

(** [s.strip().split()] and [s.split()] give the same parts. *)
Lemma split_strip (s : pystr) : py_split (py_strip s) = py_split s.
Proof.
  unfold py_split, py_strip, lstrip_by.
  destruct (rstrip_by_decompose is_space (drop_while is_space s))
    as (w & Hw & Hall).
  transitivity (split_from [] (drop_while is_space s));
    [|apply split_leading_blanks].
  set (l := drop_while is_space s) in *.
  rewrite Hw at 2. symmetry. now apply split_from_trailing_blanks.
Qed.

(** Every character of a part comes from the text that was split. *)
Lemma split_from_chars (s cur t : pystr) (x : char) :
  In t (split_from cur s) -> In x t -> In x cur \/ In x s.
Proof.
  revert cur. induction s as [|c r IH]; intros cur Ht Hx; simpl in *.
  - destruct cur; simpl in Ht; [tauto|].
    destruct Ht as [<-|[]]. now left.
  - destruct (is_space c).
    + destruct cur.
      * destruct (IH [] Ht Hx) as [[]|H]. auto.
      * destruct Ht as [<-|Ht]; [now left|].
        destruct (IH [] Ht Hx) as [[]|H]. auto.
    + destruct (IH _ Ht Hx) as [H|H]; [|auto].
      apply in_app_or in H as [H|[<-|[]]]; auto.
Qed.

Lemma py_split_chars (s t : pystr) (x : char) :
  In t (py_split s) -> In x t -> In x s.
Proof.
  intros Ht Hx. destruct (split_from_chars s [] t x Ht Hx) as [[]|H]. exact H.
Qed.


(** ** [int] on digit strings *)

Lemma ascii_digit_cases (c : char) :
  is_ascii_digit c = true ->
  In c [48; 49; 50; 51; 52; 53; 54; 55; 56; 57]%N.
Proof.
  unfold is_ascii_digit. intros H. apply andb_true_iff in H as [H1 H2].
  apply N.leb_le in H1, H2. simpl. lia.
Qed.

Lemma ascii_digit_facts (c : char) :
  is_ascii_digit c = true ->
  decimal_digit c = Some (Z.of_N c - 48)%Z
  /\ int_space c = false /\ is_space c = false
  /\ unit_multiplier c = None
  /\ (c =? minus_sign)%N = false /\ (c =? plus_sign)%N = false.
Proof.
  intros H. apply ascii_digit_cases in H. simpl in H.
  repeat (destruct H as [<-|H]; [repeat split; reflexivity|]).
  destruct H.
Qed.







Lemma digit_in_nonneg (zeros : list N) (c : char) (d : Z) :
  digit_in zeros c = Some d -> (0 <= d)%Z.
Proof.
  induction zeros as [|z rest IH]; simpl; [discriminate|].
  destruct ((z <=? c) && (c <? z + 10))%N; [|exact IH].
  intros [= <-]. lia.
Qed.

Lemma int_digits_nonneg (n : nat) :
  forall (s : pystr) (acc z : Z),
    (length s <= n)%nat -> (0 <= acc)%Z ->
    int_digits acc s = Some z -> (0 <= z)%Z.
Proof.
  induction n as [|n IH]; intros s acc z Hlen Hacc.
  - destruct s; cbn [int_digits length] in *;
      [intros [= <-]; exact Hacc | lia].
  - destruct s as [|c r]; cbn [int_digits length] in *;
      [intros [= <-]; exact Hacc|].
    destruct (decimal_digit c) as [d|] eqn:Hd.
    + apply (IH r); [lia|].
      apply digit_in_nonneg in Hd. lia.
    + destruct (c =? underscore)%N; [|discriminate].
      destruct r as [|c' r']; [discriminate|].
      destruct (decimal_digit c') as [d|] eqn:Hd'; [|discriminate].
      apply (IH r'); [cbn [length] in Hlen; lia|].
      apply digit_in_nonneg in Hd'. lia.
Qed.

Lemma int_unsigned_nonneg (s : pystr) (z : Z) :
  int_unsigned s = Some z -> (0 <= z)%Z.
Proof.
  unfold int_unsigned.
  destruct (digit_count s <=? max_str_digits)%Z; [|discriminate].
  destruct s as [|c r]; [discriminate|].
  destruct (decimal_digit c) as [d|] eqn:Hd; [|discriminate].
  apply (int_digits_nonneg (length r) r d); [lia|].
  now apply digit_in_nonneg in Hd.
Qed.

(** [int] yields a negative number only from text with a minus sign. *)
Lemma py_int_negative (s : pystr) (z : Z) :
  py_int s = Some z -> (z < 0)%Z -> In minus_sign s.
Proof.
  unfold py_int, lstrip_by. intros H Hneg.
  destruct (rstrip_by int_space (drop_while int_space s)) as [|c r] eqn:E;
    [discriminate|].
  destruct (c =? minus_sign)%N eqn:Hc.
  - apply N.eqb_eq in Hc. subst c.
    apply (drop_while_incl int_space), (rstrip_by_incl int_space).
    rewrite E. now left.
  - assert (Hz : (0 <= z)%Z); [|lia].
    destruct (c =? plus_sign)%N; now apply int_unsigned_nonneg in H.
Qed.

(** ** The parser, part by part *)










(** A part without any unit letter is passed over. *)
Lemma part_seconds_no_unit (t : pystr) :
  mentions_unit t = false -> part_seconds t = Return 0%Z.
Proof.
  unfold mentions_unit, part_seconds. intros H.
  apply orb_false_iff in H as [H Hs]. apply orb_false_iff in H as [H Hm].
  apply orb_false_iff in H as [Hd Hh]. now rewrite Hd, Hh, Hm, Hs.
Qed.


(** One failing part makes the whole loop raise. *)
Lemma parts_loop_raise (ts : list pystr) (t : pystr) (e : exn) :
  In t ts -> part_seconds t = Raise e ->
  forall total, exists e', parts_loop total ts = Raise e'.
Proof.
  intros Hin Hraise. induction ts as [|a ts IH]; intros total; [destruct Hin|].
  simpl. destruct (part_seconds a) as [n|e0] eqn:Ha; simpl.
  - destruct Hin as [->|Hin]; [congruence|]. now apply IH.
  - now exists e0.
Qed.

Lemma convert_nonneg (u : char) (k : Z) (part : pystr) (n : Z) :
  (0 <= k)%Z -> ~ In minus_sign part ->
  convert u k part = Return n -> (0 <= n)%Z.
Proof.
  unfold convert. intros Hk Hno.
  destruct (py_int (remove_char u part)) as [m|] eqn:E; [|discriminate].
  intros [= <-].
  assert (0 <= m)%Z; [|nia].
  destruct (Z_lt_le_dec m 0) as [Hneg|]; [|assumption].
  exfalso. apply Hno. apply (py_int_negative _ _ E) in Hneg.
  unfold remove_char in Hneg. now apply filter_In in Hneg.
Qed.

Lemma part_seconds_nonneg (part : pystr) (n : Z) :
  ~ In minus_sign part -> part_seconds part = Return n -> (0 <= n)%Z.
Proof.
  unfold part_seconds. intros Hno.
  destruct (contains unit_d part); [apply convert_nonneg; [lia|exact Hno]|].
  destruct (contains unit_h part); [apply convert_nonneg; [lia|exact Hno]|].
  destruct (contains unit_m part); [apply convert_nonneg; [lia|exact Hno]|].
  destruct (contains unit_s part); [apply convert_nonneg; [lia|exact Hno]|].
  intros [= <-]. lia.
Qed.

Lemma parts_loop_nonneg (ts : list pystr) :
  (forall t, In t ts -> ~ In minus_sign t) ->
  forall total z, (0 <= total)%Z ->
    parts_loop total ts = Return z -> (0 <= z)%Z.
Proof.
  induction ts as [|t ts IH]; intros Hno total z Htot; simpl.
  - now intros [= <-].
  - destruct (part_seconds t) as [n|e] eqn:E; simpl; [|discriminate].
    apply IH; [intros t' Ht'; apply Hno; now right|].
    apply part_seconds_nonneg in E; [lia|]. apply Hno. now left.
Qed.

Lemma py_strip_incl (s : pystr) (x : char) : In x (py_strip s) -> In x s.
Proof.
  unfold py_strip, lstrip_by. intros H.
  now apply (drop_while_incl is_space), (rstrip_by_incl is_space).
Qed.

(** The call itself never raises: the bare [except] answers 0. *)
Lemma parse_never_raises (v : value) :
  exists z, parse_duration_to_seconds v = Return z.
Proof.
  unfold parse_duration_to_seconds, try_except.
  destruct (parse_duration_body v) as [z|e]; eauto.
Qed.

Lemma parse_str (s : pystr) :
  parse_duration_to_seconds (VStr s)
  = try_except (parts_loop 0 (py_split s)) 0%Z.
Proof.
  unfold parse_duration_to_seconds, parse_duration_body. simpl.
  now rewrite split_strip.
Qed.

Lemma part_seconds_first_unit (t : pystr) :
  part_seconds t
  = match first_unit t with
    | Some (u, k) => convert u k t
    | None => Return 0%Z
    end.
Proof.
  unfold part_seconds, first_unit.
  destruct (contains unit_d t); [reflexivity|].
  destruct (contains unit_h t); [reflexivity|].
  destruct (contains unit_m t); [reflexivity|].
  destruct (contains unit_s t); reflexivity.
Qed.

Lemma parts_loop_unitless (ts : list pystr) :
  (forall t, In t ts -> mentions_unit t = false) ->
  forall total, parts_loop total ts = Return total.
Proof.
  induction ts as [|t ts IH]; intros H total; simpl; [reflexivity|].
  rewrite part_seconds_no_unit by (apply H; now left). simpl.
  rewrite IH by (intros t' Ht'; apply H; now right).
  now rewrite Z.add_0_r.
Qed.




(** Text in which none of [d], [h], [m], [s] occurs parses to 0. *)
Lemma parse_unitless_text (s : pystr) :
  (forall c, In c s -> unit_multiplier c = None) ->
  parse_duration_to_seconds (VStr s) = Return 0%Z.
Proof.
  intros H. rewrite parse_str.
  rewrite parts_loop_unitless; [reflexivity|].
  intros t Ht. unfold mentions_unit, contains.
  assert (Hno : forall u, unit_multiplier u <> None ->
                          existsb (N.eqb u) t = false).
  { intros u Hu. destruct (existsb (N.eqb u) t) eqn:E; [|reflexivity].
    apply existsb_exists in E as (c & Hc & Heq). apply N.eqb_eq in Heq.
    subst c. exfalso. apply Hu, H. now apply (py_split_chars s t). }
  rewrite !Hno by (vm_compute; discriminate). reflexivity.
Qed.

(** ** What [format_seconds_to_duration] writes *)

Lemma uint_chars_digits (d : Decimal.uint) (c : char) :
  In c (uint_chars d) -> is_ascii_digit c = true.
Proof.
  induction d; simpl; try tauto; intros [<-|H]; auto.
Qed.

Lemma str_of_Z_chars (z : Z) (c : char) :
  In c (str_of_Z z) -> unit_multiplier c = None.
Proof.
  unfold str_of_Z, str_of_N. intros H.
  assert (Hd : forall x, In x (uint_chars (N.to_uint (Z.abs_N z))) ->
                         unit_multiplier x = None).
  { intros x Hx. apply uint_chars_digits in Hx.
    now destruct (ascii_digit_facts x Hx) as (_ & _ & _ & ? & _). }
  destruct (z <? 0)%Z; [destruct H as [<-|H]; [reflexivity|]|]; now apply Hd.
Qed.

Lemma format_chars (x : Q) (c : char) :
  In c (format_seconds_to_duration x) -> unit_multiplier c = None.
Proof.
  unfold format_seconds_to_duration.
  assert (Hlit : forall s, forallb (fun a => match unit_multiplier a with
                                             | None => true
                                             | Some _ => false
                                             end) s = true ->
                 In c s -> unit_multiplier c = None).
  { intros s Hs Hc. rewrite forallb_forall in Hs. specialize (Hs c Hc).
    now destruct (unit_multiplier c). }
  assert (Hpiece : forall s,
             (exists z, s = str_of_Z z)
             \/ forallb (fun a => match unit_multiplier a with
                                  | None => true
                                  | Some _ => false
                                  end) s = true ->
             In c s -> unit_multiplier c = None).
  { intros s [[z ->]|Hs]; [apply str_of_Z_chars | now apply Hlit]. }
  destruct (Qltb x 60); [|destruct (Qltb x 3600); [|destruct (Qltb x 86400)]];
    cbv zeta; intros H;
    repeat (apply in_app_or in H as [H|H];
            [revert H; apply Hpiece; first [left; eexists; reflexivity
                                           | right; reflexivity]|]);
    revert H; apply Hpiece; right; reflexivity.
Qed.

(** ** Two-unit buckets *)

Lemma Qltb_true (x y : Q) : Qltb x y = true -> x < y.
Proof.
  unfold Qltb. intros H. apply negb_true_iff in H.
  apply Qnot_le_lt. intros Hle. apply Qle_bool_iff in Hle. congruence.
Qed.

Lemma Qltb_false (x y : Q) : Qltb x y = false -> y <= x.
Proof.
  unfold Qltb. intros H. apply negb_false_iff in H.
  now apply Qle_bool_iff.
Qed.

Lemma Qfloor_nonneg (x : Q) : 0 <= x -> (0 <= Qfloor x)%Z.
Proof.
  intros H. rewrite <- (Qfloor_Z 0). now apply Qfloor_resp_le.
Qed.

Lemma Qfloor_quotient_pos (x m : Q) :
  0 < m -> m <= x -> (1 <= Qfloor (x / m))%Z.
Proof.
  intros Hm Hx. rewrite <- (Qfloor_Z 1). apply Qfloor_resp_le.
  apply Qle_shift_div_l; [exact Hm|].
  change (inject_Z 1) with 1%Q. lra.
Qed.

Lemma py_mod_nonneg (x m : Q) : 0 < m -> 0 <= py_mod x m.
Proof.
  intros Hm. unfold py_mod.
  assert (H : m * inject_Z (Qfloor (x / m)) <= x).
  { assert (Hx : m * (x / m) == x) by (apply Qmult_div_r; lra).
    rewrite <- Hx at 2. apply Qmult_le_l; [exact Hm | apply Qfloor_le]. }
  lra.
Qed.

Lemma Qfloor_mod_quotient_nonneg (x m k : Q) :
  0 < m -> 0 < k -> (0 <= Qfloor (py_mod x m / k))%Z.
Proof.
  intros Hm Hk. apply Qfloor_nonneg.
  apply Qle_shift_div_l; [exact Hk|].
  pose proof (py_mod_nonneg x m Hm). lra.
Qed.

(** Only values below one second have the bucket 0. *)
Lemma two_unit_bucket_zero (x : Q) :
  0 <= x -> (two_unit_bucket x = 0%Z <-> x < 1).
Proof.
  intros Hx. unfold two_unit_bucket.
  destruct (Qltb x 60) eqn:E1.
  - split.
    + intros Hf. pose proof (Qlt_floor x) as H. now rewrite Hf in H.
    + intros Hlt. pose proof (Qfloor_nonneg x Hx) as H0.
      assert (H1 : (Qfloor x < 1)%Z).
      { rewrite Zlt_Qlt. apply Qle_lt_trans with x; [apply Qfloor_le|].
        exact Hlt. }
      lia.
  - apply Qltb_false in E1.
    destruct (Qltb x 3600) eqn:E2; [|apply Qltb_false in E2;
                                      destruct (Qltb x 86400) eqn:E3;
                                      [|apply Qltb_false in E3]].
    + pose proof (Qfloor_quotient_pos x 60 eq_refl E1).
      split; [lia | lra].
    + pose proof (Qfloor_quotient_pos x 3600 eq_refl E2).
      pose proof (Qfloor_mod_quotient_nonneg x 3600 60 eq_refl eq_refl).
      split; [lia | lra].
    + pose proof (Qfloor_quotient_pos x 86400 eq_refl E3).
      pose proof (Qfloor_mod_quotient_nonneg x 86400 3600 eq_refl eq_refl).
      split; [lia | lra].
Qed.

(** ** Averaging *)

Lemma seconds_of_parse (v : value) :
  parse_duration_to_seconds v = Return (seconds_of v).
Proof.
  unfold seconds_of. destruct (parse_never_raises v) as [z ->]. reflexivity.
Qed.



(** ** Severity bands *)











Lemma count_where_ext (p q : value -> bool) (col : list value) :
  (forall v, p v = q v) -> count_where p col = count_where q col.
Proof.
  intros H. unfold count_where. f_equal. f_equal. now apply filter_ext.
Qed.








(** ** The report *)

Example fmt_samples :
  [fmt_thousands 0; fmt_thousands 999; fmt_thousands 1000;
   fmt_thousands 1234567; fmt_thousands (-1234567);
   fmt_2d 5; fmt_2d 12; fmt_2d 123; fmt_02d 7; fmt_02d 23; fmt_02d (-7)]
  = [lit "0"; lit "999"; lit "1,000"; lit "1,234,567"; lit "-1,234,567";
     lit " 5"; lit "12"; lit "123"; lit "07"; lit "23"; lit "-7"].
Proof. reflexivity. Qed.

Example strftime_sample :
  strftime_seconds {| dt_year := 2024; dt_month := 1; dt_day := 5;
                      dt_hour := 3; dt_minute := 4; dt_second := 9 |}
  = lit "2024-01-05 03:04:09".
Proof. reflexivity. Qed.

Lemma percent_zero_total (part : Z) :
  percent part 0 = Raise ZeroDivisionError.
Proof. reflexivity. Qed.

Lemma percent_returns (part total : Z) :
  total <> 0%Z ->
  percent part total = Return (inject_Z part / inject_Z total * 100).
Proof.
  intros H. unfold percent, py_truediv.
  destruct (Z.eqb_spec total 0); [contradiction | reflexivity].
Qed.

(** The guarded quotients of the dashboard never raise. *)
Lemma guarded_quotients_return (a b : Z) :
  (exists q, ai_avg_events_per_host a b = Return q)
  /\ (exists q, chart_percentage a b = Return q)
  /\ ai_avg_events_per_host a 0 = Return 0
  /\ chart_percentage a 0 = Return 0.
Proof.
  unfold ai_avg_events_per_host, chart_percentage, percent, py_truediv.
  repeat split; try reflexivity;
    destruct (Z.ltb_spec 0 b); eauto;
    destruct (Z.eqb_spec b 0); [lia | simpl; eauto | lia | simpl; eauto].
Qed.

Lemma map_result_parse (col : list value) :
  map_result parse_duration_to_seconds col = Return (map seconds_of col).
Proof.
  induction col as [|v col IH]; simpl; [reflexivity|].
  now rewrite seconds_of_parse, IH.
Qed.

Lemma duration_strings_returns (E : Externals) (df : DataFrame) :
  exists strs, duration_strings E df = Return strs.
Proof.
  unfold duration_strings. destruct (has_column (lit "Duration") df).
  - rewrite map_result_parse. simpl. eauto.
  - eauto.
Qed.

Section ReportFacts.

Variable E : Externals.

Lemma host_lines_returns (total_events : Z) (top_hosts : list (value * Z)) :
  total_events <> 0%Z ->
  forall i, exists text,
      host_lines E i top_hosts total_events = Return text.
Proof.
  intros Hne. induction top_hosts as [|[host count] rest IH]; intros i.
  - exists []. reflexivity.
  - destruct (IH (i + 1)%Z) as [more Hmore]. simpl.
    rewrite (percent_returns count total_events Hne). simpl.
    rewrite Hmore. simpl. eauto.
Qed.

(** The text of a report is a fixed opening, the generation time, and a
    remainder that the clock has no part in; the table and every failure
    are likewise independent of the clock. *)
Lemma build_report_shape (df : DataFrame) :
  exists (opening : pystr) (r : result (pystr * SummaryData)),
    forall now : datetime,
      build_report E now df
      = match r with
        | Return (remainder, table) =>
            Return (Generated (opening ++ strftime_seconds now ++ remainder)
                              table)
        | Raise e => Raise e
        end.
Proof.
  exists (lit "# ITO 이벤트 종합 리포트" ++ nl ++ lit "        " ++ nl
          ++ lit "생성일시: ").
  unfold build_report.
  step_or_raise (if has_column (lit "Time") df
                 then time_statistics E (column (lit "Time") df)
                 else Return no_time_info) time_info.
  destruct (report_severity_counts df) as [[critical_events warning_events]
                                             info_events].
  step_or_raise (duration_strings E df) durations.
  destruct durations as [avg_str max_str].
  step_or_raise (percent critical_events (len df)) critical_pct.
  step_or_raise (percent warning_events (len df)) warning_pct.
  step_or_raise (percent info_events (len df)) info_pct.
  step_or_raise (py_truediv (len df)
                   (if has_column (lit "Host") df
                    then nunique (column (lit "Host") df) else 0%Z))
                per_host.
  match goal with
  | |- context [host_lines E 1 ?items ?n] =>
      step_or_raise (host_lines E 1 items n) hosts
  end.
  step_or_raise (hour_lines (peak_hours time_info)) hour_text.
  match goal with
  | |- context [issue_lines E 1 ?items ?n] =>
      step_or_raise (issue_lines E 1 items n) issues
  end.
  eexists (Return (_, _)). intros now.
  rewrite <- !app_assoc. reflexivity.
Qed.

Lemma generate_report_shape (st : SessionState) :
  exists (opening : pystr) (r : result (option (pystr * SummaryData))),
    forall now : datetime,
      generate_report E now st
      = match r with
        | Return (Some (remainder, table)) =>
            Return (Generated (opening ++ strftime_seconds now ++ remainder)
                              table)
        | Return None => Return (NoData no_data_message)
        | Raise e => Raise e
        end.
Proof.
  assert (Hdf : forall df,
             exists opening (r : result (option (pystr * SummaryData))),
               forall now,
                 build_report E now df
                 = match r with
                   | Return (Some (remainder, table)) =>
                       Return (Generated
                                 (opening ++ strftime_seconds now ++ remainder)
                                 table)
                   | Return None => Return (NoData no_data_message)
                   | Raise e => Raise e
                   end).
  { intros df. destruct (build_report_shape df) as (opening & r & Hr).
    exists opening.
    destruct r as [[remainder table]|e];
      [exists (Return (Some (remainder, table))) | exists (Raise e)];
      exact Hr. }
  unfold generate_report.
  destruct (event_data st) as [data|]; [apply Hdf|].
  destruct (event_files st) as [files|].
  - destruct (pd_concat (map snd files)) as [df|e]; cbn [bind].
    + apply Hdf.
    + exists [], (Raise e). reflexivity.
  - exists [], (Return None). reflexivity.
Qed.

(** Without rows the first percentage divides by zero (unless pandas has
    already failed on the [Time] column). *)
Lemma build_report_zero_rows (now : datetime) (df : DataFrame) :
  rows df = [] ->
  build_report E now df
  = if has_column (lit "Time") df
    then match time_statistics E (column (lit "Time") df) with
         | Return _ => Raise ZeroDivisionError
         | Raise e => Raise e
         end
    else Raise ZeroDivisionError.
Proof.
  intros Hrows. unfold build_report.
  assert (Hlen : len df = 0%Z) by (unfold len; now rewrite Hrows).
  rewrite Hlen.
  destruct (report_severity_counts df) as [[critical_events warning_events]
                                             info_events].
  destruct (duration_strings_returns E df) as [[avg_str max_str] ->].
  destruct (has_column (lit "Time") df);
    [destruct (time_statistics E (column (lit "Time") df))|]; reflexivity.
Qed.

(** Without a [Host] column the events-per-host average divides by zero,
    whatever the rest of the table holds. *)
Lemma build_report_no_host (now : datetime) (df : DataFrame) :
  has_column (lit "Host") df = false ->
  exists e, build_report E now df = Raise e.
Proof.
  intros Hhost. unfold build_report. rewrite Hhost.
  destruct (if has_column (lit "Time") df
            then time_statistics E (column (lit "Time") df)
            else Return no_time_info) as [time_info|e]; [|now exists e].
  cbn [bind].
  destruct (report_severity_counts df) as [[critical_events warning_events]
                                             info_events].
  destruct (duration_strings_returns E df) as [[avg_str max_str] ->].
  cbn [bind].
  destruct (percent critical_events (len df)); [|eexists; reflexivity].
  destruct (percent warning_events (len df)); [|eexists; reflexivity].
  destruct (percent info_events (len df)); [|eexists; reflexivity].
  exists ZeroDivisionError. reflexivity.
Qed.

(** The scenario table yields a report, whatever the libraries write. *)
Lemma scenario_report_generated (now : datetime) :
  exists text table,
    generate_report E now (uploaded scenario_events)
    = Return (Generated text table).
Proof.
  unfold generate_report, uploaded. cbn [event_data]. unfold build_report.
  change (has_column (lit "Time") scenario_events) with false.
  change (has_column (lit "Host") scenario_events) with true.
  change (has_column (lit "Status") scenario_events) with false.
  change (has_column (lit "Description") scenario_events) with false.
  change (report_severity_counts scenario_events) with (1, 2, 1)%Z.
  change (duration_strings E scenario_events)
    with (Return (not_applicable, not_applicable)).
  change (len scenario_events) with 4%Z.
  change (nunique (column (lit "Host") scenario_events)) with 3%Z.
  cbv iota beta. cbn [bind].
  rewrite !percent_returns by discriminate. cbn [bind].
  change (py_truediv 4 3) with (Return (inject_Z 4 / inject_Z 3)).
  cbn [bind].
  set (top_hosts := firstn 10 (value_counts E _)).
  destruct (host_lines_returns 4%Z top_hosts) with (i := 1%Z)
    as [hosts ->]; [discriminate|].
  cbn [bind].
  change (hour_lines (peak_hours no_time_info)) with (@Return pystr []).
  cbn [bind issue_lines]. eauto.
Qed.

End ReportFacts.

(* ================================================================= *)
(** * The duration codec against its specification *)

(** C2, as stated, fails: a token of 4301 nines followed by [s] is a
    non-negative integer with a unit letter, of value [10^4301 - 1], but
    [int] refuses a literal of more than 4300 digits and the bare
    [except] answers 0. *)
Lemma C2_counterexample :
  map token_value (py_split long_duration) = [Some (10 ^ 4301 - 1)%Z]
  /\ parse_duration_to_seconds (VStr long_duration) = Return 0%Z.
Proof. split; vm_compute; reflexivity. Qed.






(** C6, as stated, fails: ["-5m"] parses to -300 seconds. *)
Lemma C6_counterexample :
  exists z, parse_duration_to_seconds (VStr (lit "-5m")) = Return z
            /\ (z < 0)%Z.
Proof. exists (-300)%Z. split; reflexivity. Qed.

(** C6, amended. For every input string without a minus sign the parsed
    count is non-negative; input that cannot be read (the body raises, as
    for a value that is not text) and empty input yield 0. *)
Theorem C6_nonnegative_without_minus :
  (forall s : pystr, ~ In minus_sign s ->
     exists z, parse_duration_to_seconds (VStr s) = Return z /\ (0 <= z)%Z)
  /\ (forall (v : value) (e : exn),
        parse_duration_body v = Raise e ->
        parse_duration_to_seconds v = Return 0%Z)
  /\ parse_duration_to_seconds (VStr []) = Return 0%Z
  /\ (forall v, (forall s, v <> VStr s) ->
                parse_duration_to_seconds v = Return 0%Z).
Proof.
  split; [|split; [|split]].
  - intros s Hno. destruct (parse_never_raises (VStr s)) as [z Hz].
    exists z. split; [exact Hz|]. rewrite parse_str in Hz.
    destruct (parts_loop 0 (py_split s)) as [z'|e] eqn:E; simpl in Hz.
    + injection Hz as <-.
      refine (parts_loop_nonneg _ _ _ _ (Z.le_refl 0) E).
      intros t Ht Hm. apply Hno. now apply (py_split_chars s t).
    + injection Hz as <-. lia.
  - intros v e H. unfold parse_duration_to_seconds. now rewrite H.
  - reflexivity.
  - intros v Hv. destruct v; try reflexivity. now destruct (Hv s).
Qed.

Lemma C6_nonnegative_without_minus_witness :
  exists z, parse_duration_to_seconds (VStr (lit "2d junk 3h")) = Return z
            /\ (0 <= z)%Z.
Proof.
  apply (proj1 C6_nonnegative_without_minus).
  intros H. repeat (destruct H as [H|H]; [discriminate H|]). exact H.
Defined.

(** C10. The parser is total: on every input value it returns an integer
    and never raises; and it is all-or-nothing: if one token contains a
    unit letter and what is left of it after removing that letter is not
    an integer literal, the result for the whole input is 0. *)
Theorem C10_total_and_all_or_nothing :
  (forall v : value, exists z, parse_duration_to_seconds v = Return z)
  /\ (forall (s t : pystr) (u : char) (k : Z),
        In t (py_split (py_strip s)) ->
        first_unit t = Some (u, k) ->
        py_int (remove_char u t) = None ->
        parse_duration_to_seconds (VStr s) = Return 0%Z).
Proof.
  split; [apply parse_never_raises|].
  intros s t u k Hin Hu Hint.
  assert (Hraise : part_seconds t = Raise ValueError).
  { rewrite part_seconds_first_unit, Hu. unfold convert. now rewrite Hint. }
  unfold parse_duration_to_seconds, parse_duration_body. simpl.
  destruct (parts_loop_raise _ _ _ Hin Hraise 0%Z) as [e' ->]. reflexivity.
Qed.

Lemma C10_total_and_all_or_nothing_witness :
  parse_duration_to_seconds (VStr (lit "2d 3h 1m30s")) = Return 0%Z.
Proof.
  apply (proj2 C10_total_and_all_or_nothing
           (lit "2d 3h 1m30s") (lit "1m30s") unit_m 60%Z).
  - right. right. left. reflexivity.
  - reflexivity.
  - reflexivity.
Defined.

(** C7, as stated, fails: 5400 seconds are written with the unit words of
    the display language, which the parser does not read; the round trip
    gives 0, outside the bucket of 5400. *)
Lemma C7_counterexample :
  exists z,
    parse_duration_to_seconds (VStr (format_seconds_to_duration 5400))
    = Return z
    /\ two_unit_bucket (inject_Z z) <> two_unit_bucket 5400.
Proof. exists 0%Z. split; [reflexivity | discriminate]. Qed.

(** C7, amended. For every seconds value [x] the text written by
    [format_seconds_to_duration] contains none of the letters d, h, m, s,
    so parsing it back gives 0; for a non-negative [x] that is in the
    two-unit bucket of [x] only when [x] is below one second. *)
Theorem C7_round_trip_is_zero (x : Q) :
  parse_duration_to_seconds (VStr (format_seconds_to_duration x))
  = Return 0%Z
  /\ (0 <= x ->
      (two_unit_bucket (inject_Z 0) = two_unit_bucket x <-> x < 1)).
Proof.
  split.
  - apply parse_unitless_text. intros c. apply format_chars.
  - intros Hx. change (two_unit_bucket (inject_Z 0)) with 0%Z.
    destruct (two_unit_bucket_zero x Hx) as [H1 H2].
    split; intros H; [apply H1 | symmetry; apply H2]; auto.
Qed.

Lemma C7_round_trip_is_zero_witness :
  parse_duration_to_seconds (VStr (format_seconds_to_duration 100000))
  = Return 0%Z
  /\ ~ (two_unit_bucket (inject_Z 0) = two_unit_bucket 100000).
Proof.
  destruct (C7_round_trip_is_zero 100000) as [Hparse Hbucket].
  split; [exact Hparse|].
  intros Heq. apply Hbucket in Heq; [|discriminate].
  revert Heq. vm_compute. discriminate.
Defined.

(** C8, as stated, fails at the ends of the float range.  A single entry
    of [10^400] seconds qualifies, but its average is beyond the largest
    float: the division raises and the bare [except] answers "N/A".  And
    the average of the single entry 17279999999999999 seconds, one second
    short of 200000000000 days, is written as 200000000000 days and 0
    hours, because the average is the nearest float, 17280000000000000. *)
Lemma C8_counterexample :
  filter qualifies [VStr huge_duration] = [VStr huge_duration]
  /\ seconds_of (VStr huge_duration) = (10 ^ 400)%Z
  /\ calculate_average_duration [VStr huge_duration] = Return not_applicable
  /\ filter qualifies [VStr (lit "17279999999999999s")]
     = [VStr (lit "17279999999999999s")]
  /\ two_unit_bucket 17279999999999999
     = (86400 * 199999999999 + 3600 * 23)%Z
  /\ calculate_average_duration [VStr (lit "17279999999999999s")]
     = Return (lit "200000000000일 0시간").
Proof. repeat split; vm_compute; reflexivity. Qed.



(* ================================================================= *)
(** * The aggregator and the report against their specification *)

Example scenario_bands :
  report_severity_counts scenario_events = (1, 2, 1)%Z
  /\ band_count Unclassified scenario_events = 0%Z
  /\ len scenario_events = 4%Z.
Proof. repeat split; reflexivity. Qed.



(** C4 (a defect of the code). For a table without rows
    [generate_report] neither writes placeholders nor says that there is
    nothing to report: unless pandas has already failed on a [Time]
    column, the first percentage of the header divides by the zero row
    count and the call ends in [ZeroDivisionError]. *)
Theorem C4_zero_rows_divide_by_zero
        (E : Externals) (now : datetime) (df : DataFrame) :
  rows df = [] ->
  (exists e, generate_report E now (uploaded df) = Raise e)
  /\ (has_column (lit "Time") df = false ->
      generate_report E now (uploaded df) = Raise ZeroDivisionError).
Proof.
  intros Hrows. unfold generate_report, uploaded. cbn [event_data].
  rewrite (build_report_zero_rows E now df Hrows).
  destruct (has_column (lit "Time") df).
  - split; [|discriminate].
    destruct (time_statistics E (column (lit "Time") df)); eauto.
  - split; eauto.
Qed.

Lemma C4_zero_rows_divide_by_zero_witness :
  rows empty_events = []
  /\ forall (E : Externals) (now : datetime),
      generate_report E now (uploaded empty_events) = Raise ZeroDivisionError.
Proof.
  split; [reflexivity|]. intros E now.
  apply (C4_zero_rows_divide_by_zero E now empty_events); reflexivity.
Defined.

(** The same table kept as an individual file takes the [pd.concat]
    branch and fails alike. *)
Example empty_file_report (E : Externals) (now : datetime) :
  generate_report E now (kept_as_files [(lit "events.csv", empty_events)])
  = Raise ZeroDivisionError.
Proof. reflexivity. Qed.

(** C5 (a defect of the code). A table without a [Host] column does not
    get "not applicable" for the events-per-host average: the report
    divides the row count by the zero host count and the call raises,
    with [ZeroDivisionError] when there is no [Time] column for pandas to
    fail on first. *)
Theorem C5_missing_host_column_raises
        (E : Externals) (now : datetime) (df : DataFrame) :
  has_column (lit "Host") df = false ->
  (exists e, generate_report E now (uploaded df) = Raise e)
  /\ (has_column (lit "Time") df = false ->
      generate_report E now (uploaded df) = Raise ZeroDivisionError).
Proof.
  intros Hhost. unfold generate_report, uploaded. cbn [event_data].
  split; [now apply build_report_no_host|].
  intros Htime. unfold build_report. rewrite Hhost, Htime. cbn [bind].
  destruct (report_severity_counts df) as [[critical_events warning_events]
                                             info_events].
  destruct (duration_strings_returns E df) as [[avg_str max_str] ->].
  cbn [bind]. unfold percent, py_truediv.
  destruct (len df =? 0)%Z; reflexivity.
Qed.

Lemma C5_missing_host_column_raises_witness :
  has_column (lit "Host") hostless_events = false
  /\ forall (E : Externals) (now : datetime),
      generate_report E now (uploaded hostless_events)
      = Raise ZeroDivisionError.
Proof.
  split; [reflexivity|]. intros E now.
  apply (C5_missing_host_column_raises E now hostless_events); reflexivity.
Defined.

(** C9, as stated, fails: the same table reported at two different
    seconds gives two different texts, whatever the libraries write. *)
Lemma C9_counterexample :
  exists now1 now2 : datetime,
    forall E : Externals,
      report_text (generate_report E now1 (uploaded scenario_events))
      <> None
      /\ report_text (generate_report E now1 (uploaded scenario_events))
         <> report_text (generate_report E now2 (uploaded scenario_events)).
Proof.
  exists {| dt_year := 2024; dt_month := 1; dt_day := 5;
            dt_hour := 3; dt_minute := 4; dt_second := 9 |},
         {| dt_year := 2024; dt_month := 1; dt_day := 5;
            dt_hour := 3; dt_minute := 4; dt_second := 10 |}.
  intros E.
  destruct (generate_report_shape E (uploaded scenario_events))
    as (opening & r & Hr).
  destruct (scenario_report_generated E
              {| dt_year := 2024; dt_month := 1; dt_day := 5;
                 dt_hour := 3; dt_minute := 4; dt_second := 9 |})
    as (text & table & Hgen).
  rewrite Hgen. split; [discriminate|].
  rewrite Hr in Hgen. rewrite Hr.
  destruct r as [[[remainder table']|]|e]; try discriminate.
  injection Hgen as <- _. cbn [report_text]. intros Heq.
  injection Heq as Heq. apply app_inv_head in Heq.
  vm_compute in Heq. discriminate.
Qed.

(** C9, amended. Two runs on the same session data give the same summary
    table and fail alike; they give the same report text when the clock
    reads the same second, and only then: the generation time is part of
    the header. *)
Theorem C9_report_fixed_up_to_timestamp
        (E : Externals) (st : SessionState) (now1 now2 : datetime) :
  report_table (generate_report E now1 st)
  = report_table (generate_report E now2 st)
  /\ (forall e, generate_report E now1 st = Raise e <->
                generate_report E now2 st = Raise e)
  /\ (strftime_seconds now1 = strftime_seconds now2 ->
      generate_report E now1 st = generate_report E now2 st)
  /\ (report_text (generate_report E now1 st) <> None ->
      report_text (generate_report E now1 st)
      = report_text (generate_report E now2 st) ->
      strftime_seconds now1 = strftime_seconds now2).
Proof.
  destruct (generate_report_shape E st) as (opening & r & Hr).
  rewrite !Hr.
  destruct r as [[[remainder table]|]|e]; cbn [report_table report_text].
  - repeat split; try discriminate.
    + now intros ->.
    + intros _ Heq. injection Heq as Heq.
      apply app_inv_head in Heq. now apply app_inv_tail in Heq.
  - repeat split; try discriminate; congruence.
  - repeat split; try discriminate; congruence.
Qed.

(* ================================================================= *)
(** * Further properties of the code *)

(** ** The parser *)

Lemma parts_loop_permutation (ts ts' : list pystr) :
  Permutation ts ts' ->
  forall total,
    try_except (parts_loop total ts) 0%Z
    = try_except (parts_loop total ts') 0%Z.
Proof.
  induction 1 as [|x l l' _ IH|x y l|l l' l'' _ IH1 _ IH2]; intros total.
  - reflexivity.
  - simpl. destruct (part_seconds x); simpl; [apply IH | reflexivity].
  - simpl. destruct (part_seconds x) as [n|], (part_seconds y) as [m|];
      simpl; try reflexivity.
    now replace (total + m + n)%Z with (total + n + m)%Z by lia.
  - now rewrite IH1.
Qed.

(** X1. The order of the tokens does not matter: two strings with the
    same tokens in any order parse to the same count (a failing token
    zeroes both). *)
Theorem parse_ignores_token_order (s s' : pystr) :
  Permutation (py_split s) (py_split s') ->
  parse_duration_to_seconds (VStr s) = parse_duration_to_seconds (VStr s').
Proof.
  intros H. rewrite !parse_str. now apply parts_loop_permutation.
Qed.

Lemma parse_ignores_token_order_witness :
  parse_duration_to_seconds (VStr (lit "30m  2d 1h"))
  = parse_duration_to_seconds (VStr (lit "2d 1h 30m")).
Proof.
  apply parse_ignores_token_order.
  change (py_split (lit "30m  2d 1h")) with [lit "30m"; lit "2d"; lit "1h"].
  change (py_split (lit "2d 1h 30m")) with [lit "2d"; lit "1h"; lit "30m"].
  apply (Permutation_cons_append [lit "2d"; lit "1h"]).
Defined.

Lemma split_from_separator (w : char) (s1 s2 cur : pystr) :
  is_space w = true ->
  split_from cur (s1 ++ w :: s2) = split_from cur s1 ++ py_split s2.
Proof.
  intros Hw. revert cur. induction s1 as [|c r IH]; intros cur; simpl.
  - rewrite Hw. now destruct cur.
  - destruct (is_space c); [destruct cur|]; now rewrite IH.
Qed.

Lemma parts_loop_app (a b : list pystr) :
  forall total,
    parts_loop total (a ++ b)
    = bind (parts_loop total a) (fun t => parts_loop t b).
Proof.
  induction a as [|t a IH]; intros total; simpl; [reflexivity|].
  destruct (part_seconds t); simpl; [apply IH | reflexivity].
Qed.

Lemma parts_loop_shift (ts : list pystr) :
  forall total,
    parts_loop total ts
    = bind (parts_loop 0 ts) (fun n => Return (total + n)%Z).
Proof.
  induction ts as [|t ts IH]; intros total; simpl.
  - now rewrite Z.add_0_r.
  - destruct (part_seconds t) as [n|e]; simpl; [|reflexivity].
    rewrite (IH (total + n)%Z), (IH n).
    destruct (parts_loop 0 ts); simpl; [f_equal; lia | reflexivity].
Qed.

Lemma parse_body_str (s : pystr) :
  parse_duration_body (VStr s) = parts_loop 0 (py_split s).
Proof.
  unfold parse_duration_body. simpl. now rewrite split_strip.
Qed.

(** X2. Durations written one after the other add up: when two strings
    are read without a failing token, the string made of both, separated
    by white space, parses to the sum of their counts; when one of them
    has a failing token, the whole parses to 0. *)
Theorem parse_adds_over_concatenation (s1 s2 : pystr) (w : char) :
  is_space w = true ->
  (forall a b,
      parse_duration_body (VStr s1) = Return a ->
      parse_duration_body (VStr s2) = Return b ->
      parse_duration_to_seconds (VStr (s1 ++ w :: s2)) = Return (a + b)%Z)
  /\ ((exists e, parse_duration_body (VStr s1) = Raise e)
      \/ (exists e, parse_duration_body (VStr s2) = Raise e) ->
      parse_duration_to_seconds (VStr (s1 ++ w :: s2)) = Return 0%Z).
Proof.
  intros Hw.
  assert (Hparse : parse_duration_to_seconds (VStr (s1 ++ w :: s2))
                   = try_except
                       (bind (parts_loop 0 (py_split s1))
                             (fun t => parts_loop t (py_split s2))) 0%Z).
  { rewrite parse_str. unfold py_split at 1.
    rewrite (split_from_separator w s1 s2 [] Hw).
    now rewrite parts_loop_app. }
  rewrite Hparse, !parse_body_str. split.
  - intros a b Ha Hb. rewrite Ha. simpl.
    rewrite parts_loop_shift, Hb. reflexivity.
  - intros [[e He]|[e He]].
    + now rewrite He.
    + destruct (parts_loop 0 (py_split s1)) as [a|]; simpl; [|reflexivity].
      rewrite parts_loop_shift, He. reflexivity.
Qed.

Lemma parse_adds_over_concatenation_witness :
  parse_duration_to_seconds (VStr (lit "2d 3h" ++ 9%N :: lit "45m 10s"))
  = Return (183600 + 2710)%Z.
Proof.
  apply (proj1 (parse_adds_over_concatenation
                  (lit "2d 3h") (lit "45m 10s") 9%N eq_refl));
    reflexivity.
Defined.




